(** * c2nl.inputters.utils_two_encoder: example construction and vocabulary
    building for the two-encoder (code + control-flow graph) summariser.

    The Python module is embedded shallowly.  Python [int] is [Z], [str] is
    [string] (characters below U+0100), [list] is [list], [dict] with string
    keys is [gmap string _], [set] is [gset string], [None]-able values are
    [option].  A [Counter] is an association list in insertion order, since
    [most_common] breaks ties by that order.  Exceptions are explicit in the
    [result] type. *)

From Stdlib Require Import ZArith Ascii.
From stdpp Require Import base option list sorting gmap strings.

Local Open Scope Z_scope.
Set Default Proof Using "Type".

(** ** Exceptions *)

Inductive exn : Type :=
  | AssertionError
  | KeyError
  | AttributeError.

Inductive result (A : Type) : Type :=
  | Ok (a : A)
  | Raise (e : exn).
Arguments Ok {A} a.
Arguments Raise {A} e.

Global Instance result_ret : MRet result := λ A a, Ok a.
Global Instance result_bind : MBind result := λ A B k m,
  match m with
  | Ok a => k a
  | Raise e => Raise e
  end.

(** ** Built-ins of the language used by the module *)

Module Py.

(** [str.isspace] on one character, for code points below U+0100:
    TAB..CR, FS..US, SPACE, NEL and NBSP. *)
Definition isspace (c : ascii) : bool :=
  let n := N_of_ascii c in
  ((9 <=? n) && (n <=? 13) || (28 <=? n) && (n <=? 32)
   || (n =? 133) || (n =? 160))%N.

Definition flush (cur : string) : list string :=
  match cur with
  | EmptyString => []
  | _ => [cur]
  end.

(** [s.split()]: maximal runs of non-whitespace characters. [cur] is the
    run being read. *)
Fixpoint split_from (cur : string) (s : string) : list string :=
  match s with
  | EmptyString => flush cur
  | String c s' =>
      if isspace c then flush cur ++ split_from EmptyString s'
      else split_from (cur +:+ String c EmptyString) s'
  end.

Definition split (s : string) : list string := split_from EmptyString s.

(** [str.lower] on one character, for code points below U+0100. *)
Definition lower_char (c : ascii) : ascii :=
  let n := N_of_ascii c in
  if ((65 <=? n) && (n <=? 90)
      || (192 <=? n) && (n <=? 222) && negb (n =? 215))%N
  then ascii_of_N (n + 32) else c.

Fixpoint lower (s : string) : string :=
  match s with
  | EmptyString => EmptyString
  | String c s' => String (lower_char c) (lower s')
  end.

Fixpoint lstrip (s : string) : string :=
  match s with
  | EmptyString => EmptyString
  | String c s' => if isspace c then lstrip s' else s
  end.

Fixpoint rstrip (s : string) : string :=
  match s with
  | EmptyString => EmptyString
  | String c s' =>
      match rstrip s' with
      | EmptyString => if isspace c then EmptyString else String c EmptyString
      | r => String c r
      end
  end.

Definition strip (s : string) : string := rstrip (lstrip s).

(** [sep.join(l)] *)
Fixpoint join (sep : string) (l : list string) : string :=
  match l with
  | [] => EmptyString
  | [x] => x
  | x :: l' => x +:+ sep +:+ join sep l'
  end.

(** [l[:n]]: a negative bound counts from the end. *)
Definition slice_to {A : Type} (n : Z) (l : list A) : list A :=
  if 0 <=? n then take (Z.to_nat n) l
  else take (length l - Z.to_nat (- n))%nat l.

(** [len(l)] *)
Definition len {A : Type} (l : list A) : Z := Z.of_nat (length l).

(** [d.get(k, dflt)] *)
Definition get {V : Type} (d : gmap string V) (k : string) (dflt : V) : V :=
  default dflt (d !! k).

(** [d[k]] *)
Definition getitem {V : Type} (d : gmap string V) (k : string) : result V :=
  match d !! k with
  | Some v => Ok v
  | None => Raise KeyError
  end.

(** [zip] of five sequences stops at the shortest. *)
Fixpoint zip5 {A B C D E : Type} (la : list A) (lb : list B) (lc : list C)
    (ld : list D) (le : list E) : list (A * B * C * D * E) :=
  match la, lb, lc, ld, le with
  | a :: la', b :: lb', c :: lc', d :: ld', e :: le' =>
      (a, b, c, d, e) :: zip5 la' lb' lc' ld' le'
  | _, _, _, _, _ => []
  end.

(** *** [collections.Counter] *)

Definition Counter : Type := list (string * Z).

Definition keys (wc : Counter) : list string := wc.*1.

(** [wc[w]], zero for a missing key. *)
Fixpoint count (wc : Counter) (w : string) : Z :=
  match wc with
  | [] => 0
  | (k, n) :: rest => if decide (k = w) then n else count rest w
  end.

(** [wc[w] = wc.get(w, 0) + 1]: a new key goes last. *)
Fixpoint incr (w : string) (wc : Counter) : Counter :=
  match wc with
  | [] => [(w, 1)]
  | (k, n) :: rest =>
      if decide (k = w) then (k, n + 1) :: rest else (k, n) :: incr w rest
  end.

(** [wc.update(words)] *)
Definition update (wc : Counter) (words : list string) : Counter :=
  foldl (λ acc w, incr w acc) wc words.

(** Stable descending insertion: [x] stood before every item of [l] in the
    original order, so it goes in front of the first item that is not
    larger. *)
Fixpoint insert_desc (x : string * Z) (l : Counter) : Counter :=
  match l with
  | [] => [x]
  | y :: l' => if y.2 <=? x.2 then x :: y :: l' else y :: insert_desc x l'
  end.

(** [sorted(wc.items(), key=itemgetter(1), reverse=True)] *)
Fixpoint sorted_desc (wc : Counter) : Counter :=
  match wc with
  | [] => []
  | x :: rest => insert_desc x (sorted_desc rest)
  end.

(** [wc.most_common(n)]: everything for [None]; otherwise
    [heapq.nlargest(n, ...)], which is the first [n] items of the stable
    descending order and nothing for [n <= 0]. *)
Definition most_common (wc : Counter) (n : option Z) : Counter :=
  match n with
  | None => sorted_desc wc
  | Some k => take (Z.to_nat k) (sorted_desc wc)
  end.

End Py.

(** ** c2nl.objects *)

Module Code.
(** Modelled from the spec: the [Code] record of c2nl.objects, a plain
    attribute holder; only the attributes that this module assigns. *)
Record t : Type := mk {
  text : string;
  language : Z;
  tokens : list string;
  type : list Z;
  mask : option (list Z)   (* [None]: attribute never assigned *)
}.
End Code.

Module Summary.
(** Modelled from the spec: the [Summary] record of c2nl.objects, a plain
    attribute holder. *)
Record t : Type := mk {
  text : string;
  tokens : list string
}.

(** Modelled from the spec: [Summary.prepend_token] of c2nl.objects, which
    puts the begin marker in front of the token sequence. *)
Definition prepend_token (tok : string) (s : t) : t :=
  mk (text s) (tok :: tokens s).

(** Modelled from the spec: [Summary.append_token] of c2nl.objects, which
    puts the end marker behind the token sequence. *)
Definition append_token (tok : string) (s : t) : t :=
  mk (text s) (tokens s ++ [tok]).
End Summary.

Module Example.
(** The dict with keys ['code'], ['cfg'] and ['summary']. *)
Record t : Type := mk {
  code : Code.t;
  cfg : Code.t;
  summary : option Summary.t
}.
End Example.

(** ** c2nl.inputters.vocabulary *)

Module Vocabulary.
(** Modelled from the spec: the [Vocabulary] container of
    c2nl.inputters.vocabulary, a mapping from token strings to integer
    indices. *)
Record t : Type := mk { tok2ind : gmap string Z }.

(** Modelled from the spec: the constructor [Vocabulary(no_special_token)],
    which enters the reserved symbols: padding and unknown, and begin and
    end unless [no_special_token]. *)
Definition new (PAD_WORD UNK_WORD BOS_WORD EOS_WORD : string)
    (no_special_token : bool) : t :=
  if no_special_token
  then mk (<[UNK_WORD := 1]> {[ PAD_WORD := 0 ]})
  else mk (<[EOS_WORD := 3]> (<[BOS_WORD := 2]>
             (<[UNK_WORD := 1]> {[ PAD_WORD := 0 ]}))).

(** Modelled from the spec: the membership test [w in word_dict]. *)
Definition contains (v : t) (w : string) : bool :=
  bool_decide (is_Some (tok2ind v !! w)).

(** Modelled from the spec: [Vocabulary.add], which gives a word that is
    not yet a member the next free index. *)
Definition add (v : t) (w : string) : t :=
  if contains v w then v
  else mk (<[w := Z.of_nat (size (tok2ind v))]> (tok2ind v)).
End Vocabulary.

(** ** Iteration over a [set]

    The language leaves the order in which a [set] yields its elements
    open; for [str] elements the interpreter derives it from hashes that are
    salted anew for every process.  The order that one run of the
    interpreter uses is therefore a parameter of that run: some enumeration
    of the elements. *)
Record SetOrder : Type := mkSetOrder {
  set_iter : gset string → list string;
  set_iter_perm : ∀ s, set_iter s ≡ₚ elements s
}.

(** ** The module *)

Record Args : Type := mkArgs {
  max_src_len : Z;
  max_cfg_len : Z;
  max_tgt_len : Z;
  code_tag_type : string;
  cfg_tag_type : string;
  uncase : bool;
  tune_partial : Z
}.

(** The contents of the files named by [filenames], as the lines that
    iterating over each open file yields; [None] for a name that is [None]. *)
Record Files : Type := mkFiles {
  f_src : list string;
  f_cfg : list string;
  f_tgt : option (list string);
  f_src_tag : option (list string);
  f_cfg_tag : option (list string)
}.

(** ** Concrete constants and inputs

    Values of the constants of c2nl.inputters.constants and small inputs,
    used to evaluate the module. *)

Module Sample.
Definition BOS_WORD : string := "<s>".
Definition EOS_WORD : string := "</s>".
Definition PAD_WORD : string := "<blank>".
Definition UNK_WORD : string := "<unk>".

Definition TOKEN_TYPE_MAP : gmap string Z :=
  <["method" := 4]> (<["var" := 3]> (<["other" := 2]>
    (<["<unk>" := 1]> {[ "<pad>" := 0 ]}))).
Definition AST_TYPE_MAP : gmap string Z :=
  <["T" := 2]> (<["N" := 1]> {[ "<pad>" := 0 ]}).
Definition DATA_LANG_MAP : gmap string string :=
  <["python" := "python"]> {[ "java" := "java" ]}.
Definition LANG_ID_MAP : gmap string Z :=
  <["python" := 1]> {[ "java" := 0 ]}.

Definition normalize (w : string) : string := w.

Definition args : Args := mkArgs 10 10 10 "subtoken" "ast" false 2.

(** Two interpreters that enumerate a set in opposite orders. *)
Definition order_fwd : SetOrder :=
  mkSetOrder elements (λ s, reflexivity (elements s)).
Definition order_rev : SetOrder :=
  mkSetOrder (λ s, reverse (elements s))
    (λ s, reverse_Permutation (elements s)).

(** An example whose code fragment has the given tokens. *)
Definition example_of (tokens : list string) (summary : list string)
    : Example.t :=
  Example.mk (Code.mk (Py.join " " tokens) 0 tokens [] None)
    (Code.mk "c" 0 ["c"] [] None)
    (Some (Summary.mk (Py.join " " summary) summary)).

(** [word n] is the letter a repeated [n + 1] times. *)
Fixpoint word (n : nat) : string :=
  match n with
  | O => "a"
  | S n' => String "a" (word n')
  end.

(** 101 distinct words. *)
Definition many_words : list string := word <$> seq 0 101.
End Sample.

Section Inputters.

(** c2nl.inputters.constants, not part of this module. *)
Variables BOS_WORD EOS_WORD PAD_WORD UNK_WORD : string.
Variables TOKEN_TYPE_MAP AST_TYPE_MAP : gmap string Z.
Variable DATA_LANG_MAP : gmap string string.
Variable LANG_ID_MAP : gmap string Z.

(** [Vocabulary.normalize], assumed pure. *)
Variable normalize : string → string.

(** *** Data loading *)

(** The tag list of one stream: [[]] without a tag string, else its split;
    [None] stands for the early [return None] on a length mismatch. *)
Definition read_tags (tokens : list string) (tag : option string)
    : option (list string) :=
  match tag with
  | None => Some []
  | Some tg =>
      let type := Py.split tg in
      if decide (Py.len tokens ≠ Py.len type) then None else Some type
  end.

Definition tag_mask (tag_type : string) (type : list string)
    : option (list Z) :=
  if decide (tag_type ≠ "subtoken")
  then Some ((λ ct, if decide (ct = "N") then 1 else 0) <$> type)
  else None.

(** The tag-to-integer table that belongs to a tag-mode. *)
Definition table_of (tag_type : string) : gmap string Z :=
  if decide (tag_type = "subtoken") then TOKEN_TYPE_MAP else AST_TYPE_MAP.

Definition process_examples (lang_id : Z) (source : string)
    (source_tag : option string) (cfg_source : string)
    (cfg_tag : option string) (target : option string)
    (max_src_len max_cfg_len max_tgt_len : Z)
    (code_tag_type cfg_tag_type : string)
    (uncase test_split : bool) : option Example.t :=
  let code_tokens := Py.split source in
  code_type ← read_tags code_tokens source_tag;
  let code_tokens := Py.slice_to max_src_len code_tokens in
  let code_type := Py.slice_to max_src_len code_type in
  if decide (Py.len code_tokens = 0) then None else
  let TAG_TYPE_MAP :=
    if decide (code_tag_type = "subtoken")
    then TOKEN_TYPE_MAP else AST_TYPE_MAP in
  let code :=
    Code.mk source lang_id code_tokens
      ((λ ct, Py.get TAG_TYPE_MAP ct 1) <$> code_type)
      (tag_mask code_tag_type code_type) in
  let cfg_tokens := Py.split cfg_source in
  cfg_type ← read_tags cfg_tokens cfg_tag;
  let cfg_tokens := Py.slice_to max_cfg_len cfg_tokens in
  let cfg_type := Py.slice_to max_cfg_len cfg_type in
  if decide (Py.len cfg_tokens = 0) then None else
  let cfg :=
    Code.mk cfg_source lang_id cfg_tokens
      ((λ ct, Py.get TAG_TYPE_MAP ct 1) <$> cfg_type)
      (tag_mask cfg_tag_type cfg_type) in
  match target with
  | Some target =>
      let summ := if uncase then Py.lower target else target in
      let summ_tokens := Py.split summ in
      let summ_tokens :=
        if negb test_split then Py.slice_to max_tgt_len summ_tokens
        else summ_tokens in
      if decide (Py.len summ_tokens = 0) then None else
      let summary := Summary.mk (Py.join " " summ_tokens) summ_tokens in
      let summary := Summary.prepend_token BOS_WORD summary in
      let summary := Summary.append_token EOS_WORD summary in
      Some (Example.mk code cfg (Some summary))
  | None => Some (Example.mk code cfg None)
  end.

(** One pass of the loop over the zipped lines, [examples] being the list
    accumulated so far; the recursion stops at the [break]. *)
Fixpoint load_loop (args : Args) (max_examples : Z) (dataset_name : string)
    (test_split : bool)
    (rows : list (string * option string * string * option string
                  * option string))
    (examples : list Example.t) : result (list Example.t) :=
  match rows with
  | [] => Ok examples
  | (src, src_tag, cfg, cfg_tag, tgt) :: rows' =>
      examples ←
        (if bool_decide (dataset_name ∈ ["java"; "python"])
         then
           lang ← Py.getitem DATA_LANG_MAP dataset_name;
           lang_id ← Py.getitem LANG_ID_MAP lang;
           match process_examples lang_id src src_tag cfg cfg_tag tgt
                   (max_src_len args) (max_cfg_len args) (max_tgt_len args)
                   (code_tag_type args) (cfg_tag_type args)
                   (uncase args) test_split with
           | Some _ex => Ok (examples ++ [_ex])
           | None => Ok examples
           end
         else Ok examples);
      if negb (max_examples =? -1) && (max_examples <? Py.len examples)
      then Ok examples
      else load_loop args max_examples dataset_name test_split rows' examples
  end.

Definition read_lines (f : list string) : list string := Py.strip <$> f.

(** The lines of an optional file, or as many [None] as there are sources. *)
Definition read_optional (f : option (list string)) (sources : list string)
    : list (option string) :=
  match f with
  | Some f => Some <$> read_lines f
  | None => replicate (length sources) None
  end.

Definition load_data (args : Args) (filenames : Files) (max_examples : Z)
    (dataset_name : string) (test_split : bool) : result (list Example.t) :=
  let sources := read_lines (f_src filenames) in
  let cfg := read_lines (f_cfg filenames) in
  let targets := read_optional (f_tgt filenames) sources in
  let source_tags := read_optional (f_src_tag filenames) sources in
  let cfg_tags := read_optional (f_cfg_tag filenames) sources in
  if decide (Py.len sources = Py.len source_tags
             ∧ Py.len source_tags = Py.len targets
             ∧ Py.len targets = Py.len cfg)
  then load_loop args max_examples dataset_name test_split
         (Py.zip5 sources source_tags cfg cfg_tags targets) []
  else Raise AssertionError.

(** *** Dictionary building *)

(** [ex[field].tokens] *)
Definition field_tokens (ex : Example.t) (field : string)
    : result (list string) :=
  if decide (field = "code") then Ok (Code.tokens (Example.code ex))
  else if decide (field = "cfg") then Ok (Code.tokens (Example.cfg ex))
  else if decide (field = "summary") then
    match Example.summary ex with
    | Some s => Ok (Summary.tokens s)
    | None => Raise AttributeError
    end
  else Raise KeyError.

Definition _insert (word_count : Py.Counter) (iterable : list string)
    : Py.Counter :=
  let words := normalize <$> iterable in
  Py.update word_count words.

Fixpoint tally_fields (ex : Example.t) (fields : list string)
    (word_count : Py.Counter) : result Py.Counter :=
  match fields with
  | [] => Ok word_count
  | field :: fields' =>
      tokens ← field_tokens ex field;
      tally_fields ex fields' (_insert word_count tokens)
  end.

Fixpoint tally_examples (examples : list Example.t) (fields : list string)
    (word_count : Py.Counter) : result Py.Counter :=
  match examples with
  | [] => Ok word_count
  | ex :: examples' =>
      word_count ← tally_fields ex fields word_count;
      tally_examples examples' fields word_count
  end.

(** [dict_size - 2 if dict_size and dict_size > 2 else dict_size] *)
Definition reserve (dict_size : option Z) : option Z :=
  match dict_size with
  | Some n => if negb (n =? 0) && (2 <? n) then Some (n - 2) else Some n
  | None => None
  end.

Definition load_words (args : Args) (examples : list Example.t)
    (fields : list string) (dict_size : option Z) : result (gset string) :=
  word_count ← tally_examples examples fields [];
  let dict_size := reserve dict_size in
  let most_common := Py.most_common word_count dict_size in
  Ok (list_to_set (Py.keys most_common)).

Definition build_word_dict (order : SetOrder) (args : Args)
    (examples : list Example.t) (fields : list string)
    (dict_size : option Z) (no_special_token : bool)
    : result Vocabulary.t :=
  let word_dict :=
    Vocabulary.new PAD_WORD UNK_WORD BOS_WORD EOS_WORD no_special_token in
  words ← load_words args examples fields dict_size;
  Ok (foldl Vocabulary.add word_dict (set_iter order words)).

(** The inner loop of [top_summary_words] over the tokens of one summary. *)
Definition count_known (word_dict : Vocabulary.t) (word_count : Py.Counter)
    (tokens : list string) : Py.Counter :=
  foldl (λ word_count w,
           let w := normalize w in
           if Vocabulary.contains word_dict w
           then Py.update word_count [w] else word_count)
        word_count tokens.

Fixpoint summary_word_count (examples : list Example.t)
    (word_dict : Vocabulary.t) (word_count : Py.Counter)
    : result Py.Counter :=
  match examples with
  | [] => Ok word_count
  | ex :: examples' =>
      match Example.summary ex with
      | Some s =>
          summary_word_count examples' word_dict
            (count_known word_dict word_count (Summary.tokens s))
      | None => Raise AttributeError
      end
  end.

Definition top_summary_words (args : Args) (examples : list Example.t)
    (word_dict : Vocabulary.t) : result Py.Counter :=
  word_count ← summary_word_count examples word_dict [];
  Ok (Py.most_common word_count (Some (tune_partial args))).


(** *** Auxiliary notions used to state the properties of [load_data] *)

(** The assertion that [load_data] makes on the lists it has read. *)
Definition lengths_agree (filenames : Files) : Prop :=
  let sources := read_lines (f_src filenames) in
  let cfg := read_lines (f_cfg filenames) in
  let targets := read_optional (f_tgt filenames) sources in
  let source_tags := read_optional (f_src_tag filenames) sources in
  Py.len sources = Py.len source_tags
  ∧ Py.len source_tags = Py.len targets
  ∧ Py.len targets = Py.len cfg.

(** The tuples that the loop of [load_data] runs over. *)
Definition zipped_lines (filenames : Files)
    : list (string * option string * string * option string * option string) :=
  let sources := read_lines (f_src filenames) in
  let cfg := read_lines (f_cfg filenames) in
  let targets := read_optional (f_tgt filenames) sources in
  let source_tags := read_optional (f_src_tag filenames) sources in
  let cfg_tags := read_optional (f_cfg_tag filenames) sources in
  Py.zip5 sources source_tags cfg cfg_tags targets.

(** The example, if any, that the record builder makes of one tuple. *)
Definition row_example (args : Args) (test_split : bool) (lang_id : Z)
    (row : string * option string * string * option string * option string)
    : option Example.t :=
  let '(src, src_tag, cfg, cfg_tag, tgt) := row in
  process_examples lang_id src src_tag cfg cfg_tag tgt
    (max_src_len args) (max_cfg_len args) (max_tgt_len args)
    (code_tag_type args) (cfg_tag_type args) (uncase args) test_split.

(** *** Auxiliary notions used to state the ranking of [most_common] *)

(** [a] stands before [b] in [l]. *)
Definition before {A : Type} (l : list A) (a b : A) : Prop :=
  ∃ i j : nat, l !! i = Some a ∧ l !! j = Some b ∧ (i < j)%nat.

(** [a] ranks before [b]: a larger count, or the same count and an earlier
    place in the counter. *)
Definition ranks_before (wc : Py.Counter) (a b : string * Z) : Prop :=
  b.2 < a.2 ∨ (a.2 = b.2 ∧ before wc a b).

(** *** Auxiliary notions used to state the properties of the tally *)

(** The tokens that the loops of [load_words] visit, in order. *)
Fixpoint fields_tokens (ex : Example.t) (fields : list string)
    : result (list string) :=
  match fields with
  | [] => Ok []
  | field :: fields' =>
      tokens ← field_tokens ex field;
      rest ← fields_tokens ex fields';
      Ok (tokens ++ rest)
  end.

Fixpoint corpus_tokens (examples : list Example.t) (fields : list string)
    : result (list string) :=
  match examples with
  | [] => Ok []
  | ex :: examples' =>
      tokens ← fields_tokens ex fields;
      rest ← corpus_tokens examples' fields;
      Ok (tokens ++ rest)
  end.

(** The distinct words of [ws] in the order of their first occurrence,
    after those of [seen]. *)
Definition first_seen (seen ws : list string) : list string :=
  foldl (λ acc w, if decide (w ∈ acc) then acc else acc ++ [w]) seen ws.

(** *** Auxiliary notion used to state the property of [top_summary_words] *)

(** The tokens of all summaries, in the order the loops visit them. *)
Definition summary_tokens (examples : list Example.t) : list string :=
  concat ((λ ex, from_option Summary.tokens [] (Example.summary ex))
            <$> examples).

End Inputters.

(** * Properties *)

(** ** The record builder *)

Lemma read_tags_None tokens tag :
  read_tags tokens tag = None ↔
  ∃ tg, tag = Some tg ∧ Py.len tokens ≠ Py.len (Py.split tg).
Proof.
  unfold read_tags. destruct tag as [tg|]; [|naive_solver].
  case_decide; naive_solver.
Qed.

Lemma read_tags_Some tokens tag type :
  read_tags tokens tag = Some type →
  (tag = None ∧ type = []) ∨
  (∃ tg, tag = Some tg ∧ type = Py.split tg ∧ length type = length tokens).
Proof.
  unfold read_tags, Py.len. destruct tag as [tg|]; [|naive_solver].
  case_decide; [done|]. intros [= <-]. right. exists tg.
  split_and!; [done..|]. lia.
Qed.

Lemma slice_to_length {A B : Type} (n : Z) (l1 : list A) (l2 : list B) :
  length l1 = length l2 →
  length (Py.slice_to n l1) = length (Py.slice_to n l2).
Proof.
  intros Hlen. unfold Py.slice_to.
  destruct (0 <=? n); rewrite !length_take; lia.
Qed.

Lemma slice_to_nil {A : Type} (n : Z) : Py.slice_to n (@nil A) = [].
Proof. unfold Py.slice_to. destruct (0 <=? n); by rewrite take_nil. Qed.

Lemma slice_to_pos {A : Type} (n : Z) (l : list A) :
  0 ≤ n → Py.slice_to n l = take (Z.to_nat n) l.
Proof. intros Hn. unfold Py.slice_to. by apply Z.leb_le in Hn as ->. Qed.

Lemma tag_mask_length tag_type type m :
  tag_mask tag_type type = Some m → length m = length type.
Proof.
  unfold tag_mask. case_decide; [|done]. intros [= <-]. by rewrite length_fmap.
Qed.

Section RecordBuilder.
Variables BOS_WORD EOS_WORD : string.
Variables TOKEN_TYPE_MAP AST_TYPE_MAP : gmap string Z.

Local Abbreviation process_examples :=
  (process_examples BOS_WORD EOS_WORD TOKEN_TYPE_MAP AST_TYPE_MAP).
Local Abbreviation table_of := (table_of TOKEN_TYPE_MAP AST_TYPE_MAP).

(** The reject conditions of [process_examples]. *)
Lemma process_examples_None_cases lang_id source source_tag cfg_source cfg_tag
    target msl mcl mtl ctt cft unc test_split :
  process_examples lang_id source source_tag cfg_source cfg_tag target
    msl mcl mtl ctt cft unc test_split = None ↔
  (∃ tg, source_tag = Some tg ∧ Py.len (Py.split source) ≠ Py.len (Py.split tg))
  ∨ Py.len (Py.slice_to msl (Py.split source)) = 0
  ∨ (∃ tg, cfg_tag = Some tg
           ∧ Py.len (Py.split cfg_source) ≠ Py.len (Py.split tg))
  ∨ Py.len (Py.slice_to mcl (Py.split cfg_source)) = 0
  ∨ (∃ tgt, target = Some tgt ∧
       let summ_tokens := Py.split (if unc then Py.lower tgt else tgt) in
       Py.len (if test_split then summ_tokens
               else Py.slice_to mtl summ_tokens) = 0).
Proof.
  unfold process_examples.
  destruct (read_tags (Py.split source) source_tag) as [code_type|] eqn:Hc; simpl.
  2:{ apply read_tags_None in Hc. naive_solver. }
  assert (¬ ∃ tg, source_tag = Some tg ∧ Py.len (Py.split source) ≠ Py.len (Py.split tg)) as N1.
  { rewrite <- read_tags_None, Hc. done. }
  case_decide as Hl; [naive_solver|].
  destruct (read_tags (Py.split cfg_source) cfg_tag) as [cfg_type|] eqn:Hg; simpl.
  2:{ apply read_tags_None in Hg. naive_solver. }
  assert (¬ ∃ tg, cfg_tag = Some tg ∧ Py.len (Py.split cfg_source) ≠ Py.len (Py.split tg)) as N2.
  { rewrite <- read_tags_None, Hg. done. }
  case_decide as Hl2; [naive_solver|].
  destruct target as [tgt|]; [|naive_solver].
  destruct test_split; simpl; case_decide; naive_solver.
Qed.

(** C5.  [process_examples] returns [None] exactly when one of the reject
    conditions holds: a supplied code tag string whose token count differs
    from that of the code, no code token left by the truncation to
    [max_src_len], the same two for the cfg stream with [max_cfg_len], or a
    supplied target without tokens (after the truncation to [max_tgt_len]
    when [test_split] is false).  The function is total: it raises
    nothing. *)
Theorem process_examples_None_iff lang_id source source_tag cfg_source cfg_tag
    target msl mcl mtl ctt cft unc test_split :
  process_examples lang_id source source_tag cfg_source cfg_tag target
    msl mcl mtl ctt cft unc test_split = None ↔
  (∃ tg, source_tag = Some tg
         ∧ Py.len (Py.split source) ≠ Py.len (Py.split tg))
  ∨ Py.len (Py.slice_to msl (Py.split source)) = 0
  ∨ (∃ tg, cfg_tag = Some tg
           ∧ Py.len (Py.split cfg_source) ≠ Py.len (Py.split tg))
  ∨ Py.len (Py.slice_to mcl (Py.split cfg_source)) = 0
  ∨ (∃ tgt, target = Some tgt ∧
       let summ_tokens := Py.split (if unc then Py.lower tgt else tgt) in
       Py.len (if test_split then summ_tokens
               else Py.slice_to mtl summ_tokens) = 0).
Proof. apply process_examples_None_cases. Qed.

(** What a returned example is made of. *)
Lemma process_examples_Some lang_id source source_tag cfg_source cfg_tag
    target msl mcl mtl ctt cft unc test_split ex :
  process_examples lang_id source source_tag cfg_source cfg_tag target
    msl mcl mtl ctt cft unc test_split = Some ex →
  ∃ code_type cfg_type,
    read_tags (Py.split source) source_tag = Some code_type
    ∧ read_tags (Py.split cfg_source) cfg_tag = Some cfg_type
    ∧ Py.slice_to msl (Py.split source) ≠ []
    ∧ Py.slice_to mcl (Py.split cfg_source) ≠ []
    ∧ Example.code ex =
        Code.mk source lang_id (Py.slice_to msl (Py.split source))
          ((λ ct, Py.get (table_of ctt) ct 1) <$> Py.slice_to msl code_type)
          (tag_mask ctt (Py.slice_to msl code_type))
    ∧ Example.cfg ex =
        Code.mk cfg_source lang_id (Py.slice_to mcl (Py.split cfg_source))
          ((λ ct, Py.get (table_of ctt) ct 1) <$> Py.slice_to mcl cfg_type)
          (tag_mask cft (Py.slice_to mcl cfg_type))
    ∧ match target with
      | None => Example.summary ex = None
      | Some tgt =>
          let summ_tokens := Py.split (if unc then Py.lower tgt else tgt) in
          let kept := if test_split then summ_tokens
                      else Py.slice_to mtl summ_tokens in
          kept ≠ []
          ∧ Example.summary ex =
              Some (Summary.mk (Py.join " " kept)
                      (BOS_WORD :: kept ++ [EOS_WORD]))
      end.
Proof.
  unfold process_examples, table_of.
  destruct (read_tags (Py.split source) source_tag) as [code_type|]; [|done].
  simpl. case_decide as Hl; [done|].
  destruct (read_tags (Py.split cfg_source) cfg_tag) as [cfg_type|]; [|done].
  simpl. case_decide as Hl2; [done|].
  assert (∀ l : list string, Py.len l ≠ 0 → l ≠ []) as Hne.
  { intros l H ->. by apply H. }
  destruct target as [tgt|].
  - case_decide as Hl3; [done|]. intros [= <-].
    exists code_type, cfg_type. split_and!; auto.
    + destruct test_split; simpl in *; auto.
    + destruct test_split; done.
  - intros [= <-]. exists code_type, cfg_type. split_and!; auto.
Qed.

(** C9 (as amended).  In every example that [process_examples] returns, a
    fragment whose tag string was supplied has as many type entries as
    tokens, and its mask, when one was assigned (tag-mode other than
    'subtoken'), has as many entries as tokens.  A fragment without a tag
    string has an empty type sequence and, when assigned, an empty mask. *)
Theorem annotations_match_tokens lang_id source source_tag cfg_source cfg_tag
    target msl mcl mtl ctt cft unc test_split ex :
  process_examples lang_id source source_tag cfg_source cfg_tag target
    msl mcl mtl ctt cft unc test_split = Some ex →
  let aligned (tag : option string) (c : Code.t) :=
    match tag with
    | Some _ =>
        length (Code.type c) = length (Code.tokens c)
        ∧ ∀ m, Code.mask c = Some m → length m = length (Code.tokens c)
    | None =>
        Code.type c = [] ∧ ∀ m, Code.mask c = Some m → m = []
    end in
  aligned source_tag (Example.code ex) ∧ aligned cfg_tag (Example.cfg ex).
Proof.
  intros Hex.
  apply process_examples_Some in Hex
    as (code_type & cfg_type & Hc & Hg & _ & _ & -> & -> & _).
  apply read_tags_Some in Hc, Hg. simpl.
  split.
  - destruct Hc as [[-> ->]|(tg & -> & -> & Hlen)]; simpl.
    + rewrite slice_to_nil. split; [done|]. intros m Hm.
      apply tag_mask_length in Hm. by destruct m.
    + rewrite length_fmap. split.
      * by apply slice_to_length.
      * intros m Hm. apply tag_mask_length in Hm. rewrite Hm.
        by apply slice_to_length.
  - destruct Hg as [[-> ->]|(tg & -> & -> & Hlen)]; simpl.
    + rewrite slice_to_nil. split; [done|]. intros m Hm.
      apply tag_mask_length in Hm. by destruct m.
    + rewrite length_fmap. split.
      * by apply slice_to_length.
      * intros m Hm. apply tag_mask_length in Hm. rewrite Hm.
        by apply slice_to_length.
Qed.

(** The type sequence of the cfg fragment is read off the table of the CODE
    tag-mode; [cfg_tag_type] only decides whether a mask is computed. *)
Lemma cfg_type_table lang_id source source_tag cfg_source cfg_tag
    target msl mcl mtl ctt cft unc test_split ex :
  process_examples lang_id source source_tag cfg_source cfg_tag target
    msl mcl mtl ctt cft unc test_split = Some ex →
  ∃ cfg_type,
    read_tags (Py.split cfg_source) cfg_tag = Some cfg_type
    ∧ Code.type (Example.cfg ex) =
        (λ ct, Py.get (table_of ctt) ct 1) <$> Py.slice_to mcl cfg_type.
Proof.
  intros Hex.
  apply process_examples_Some in Hex
    as (code_type & cfg_type & _ & Hg & _ & _ & _ & -> & _).
  by exists cfg_type.
Qed.

(** C8 (as amended).  With [max_tgt_len] at least 1 and a target of more
    than [max_tgt_len] tokens, whenever the call with [test_split = True]
    returns an example, the call with [test_split = False] returns one with
    the same code and cfg fragments; its summary is the first [max_tgt_len]
    tokens between the two markers, [max_tgt_len + 2] tokens in all, while
    the test-mode summary is all tokens between the markers. *)
Theorem test_split_only_truncates_summary lang_id source source_tag
    cfg_source cfg_tag tgt msl mcl mtl ctt cft (unc : bool) ex_t :
  1 ≤ mtl →
  mtl < Py.len (Py.split (if unc then Py.lower tgt else tgt)) →
  process_examples lang_id source source_tag cfg_source cfg_tag (Some tgt)
    msl mcl mtl ctt cft unc true = Some ex_t →
  let summ_tokens := Py.split (if unc then Py.lower tgt else tgt) in
  ∃ ex_f s_f s_t,
    process_examples lang_id source source_tag cfg_source cfg_tag (Some tgt)
      msl mcl mtl ctt cft unc false = Some ex_f
    ∧ Example.code ex_f = Example.code ex_t
    ∧ Example.cfg ex_f = Example.cfg ex_t
    ∧ Example.summary ex_f = Some s_f
    ∧ Summary.tokens s_f =
        BOS_WORD :: take (Z.to_nat mtl) summ_tokens ++ [EOS_WORD]
    ∧ Py.len (Summary.tokens s_f) = mtl + 2
    ∧ Example.summary ex_t = Some s_t
    ∧ Summary.tokens s_t = BOS_WORD :: summ_tokens ++ [EOS_WORD].
Proof.
  intros Hpos Hlong Ht summ_tokens.
  destruct (process_examples lang_id source source_tag cfg_source cfg_tag
              (Some tgt) msl mcl mtl ctt cft unc false) as [ex_f|] eqn:Hf.
  - apply process_examples_Some in Ht
      as (ct1 & gt1 & Hc1 & Hg1 & _ & _ & Hcode1 & Hcfg1 & _ & Hs1).
    apply process_examples_Some in Hf
      as (ct2 & gt2 & Hc2 & Hg2 & _ & _ & Hcode2 & Hcfg2 & _ & Hs2).
    simplify_eq. simpl in *. fold summ_tokens in Hs1, Hs2, Hlong.
    eexists ex_f, _, _. split_and!; try done.
    + congruence.
    + congruence.
    + simpl. by rewrite slice_to_pos by lia.
    + simpl. rewrite slice_to_pos by lia. unfold Py.len in *.
      rewrite length_cons, length_app, length_take. simpl. lia.
  - exfalso. apply process_examples_None_cases in Hf.
    assert (process_examples lang_id source source_tag cfg_source cfg_tag
              (Some tgt) msl mcl mtl ctt cft unc true ≠ None) as Hn
      by (rewrite Ht; done).
    rewrite process_examples_None_cases in Hn.
    destruct Hf as [?|[?|[?|[?|(t & [= <-] & Hz)]]]]; try (apply Hn; tauto).
    simpl in Hz. fold summ_tokens in Hz, Hlong.
    rewrite slice_to_pos in Hz by lia. unfold Py.len in *.
    rewrite length_take in Hz. lia.
Qed.

End RecordBuilder.

(** ** The corpus loader *)

Section CorpusLoader.
Variables BOS_WORD EOS_WORD : string.
Variables TOKEN_TYPE_MAP AST_TYPE_MAP : gmap string Z.
Variable DATA_LANG_MAP : gmap string string.
Variable LANG_ID_MAP : gmap string Z.

Local Abbreviation load_loop :=
  (load_loop BOS_WORD EOS_WORD TOKEN_TYPE_MAP AST_TYPE_MAP
     DATA_LANG_MAP LANG_ID_MAP).
Local Abbreviation load_data :=
  (load_data BOS_WORD EOS_WORD TOKEN_TYPE_MAP AST_TYPE_MAP
     DATA_LANG_MAP LANG_ID_MAP).
Local Abbreviation row_example :=
  (row_example BOS_WORD EOS_WORD TOKEN_TYPE_MAP AST_TYPE_MAP).

Lemma load_data_unfold args filenames max_examples dataset_name test_split :
  load_data args filenames max_examples dataset_name test_split =
  if decide (lengths_agree filenames)
  then load_loop args max_examples dataset_name test_split
         (zipped_lines filenames) []
  else Raise AssertionError.
Proof. reflexivity. Qed.

(** A mismatch among the four asserted lists aborts the load. *)
Lemma load_data_asserts args filenames max_examples dataset_name test_split :
  ¬ lengths_agree filenames →
  load_data args filenames max_examples dataset_name test_split
  = Raise AssertionError.
Proof. intros Hn. rewrite load_data_unfold. by rewrite decide_False. Qed.

Section Loop.
Variables (args : Args) (max_examples : Z) (dataset_name : string)
  (test_split : bool) (lang : string) (lang_id : Z).
Hypothesis Hknown : dataset_name ∈ ["java"; "python"].
Hypothesis Hlang : DATA_LANG_MAP !! dataset_name = Some lang.
Hypothesis Hid : LANG_ID_MAP !! lang = Some lang_id.

Local Abbreviation valid rows := (omap (row_example args test_split lang_id) rows).

(** Without a cap the loop collects the examples of all tuples. *)
Lemma load_loop_uncapped rows examples :
  max_examples = -1 →
  load_loop args max_examples dataset_name test_split rows examples
  = Ok (examples ++ valid rows).
Proof using Hknown Hlang Hid.
  intros ->. revert examples.
  induction rows as [|[[[[src src_tag] cfg] cfg_tag] tgt] rows IH];
    intros examples; simpl.
  { by rewrite app_nil_r. }
  rewrite bool_decide_true by done.
  unfold Py.getitem. rewrite Hlang. simpl. rewrite Hid. simpl.
  destruct (process_examples _ _ _ _ _ _ _ _ _ _ _ _ _) as [ex|]; simpl.
  - rewrite IH. by rewrite <- app_assoc.
  - apply IH.
Qed.

(** With a cap [max_examples >= 0] the loop stops as soon as it holds
    [max_examples + 1] examples. *)
Lemma load_loop_capped rows examples :
  0 ≤ max_examples →
  Py.len examples ≤ max_examples →
  load_loop args max_examples dataset_name test_split rows examples
  = Ok (take (Z.to_nat max_examples + 1) (examples ++ valid rows)).
Proof using Hknown Hlang Hid.
  intros Hm. revert examples.
  induction rows as [|[[[[src src_tag] cfg] cfg_tag] tgt] rows IH];
    intros examples Hlen; simpl.
  { rewrite app_nil_r, take_ge; [done|]. unfold Py.len in Hlen. lia. }
  rewrite bool_decide_true by done.
  unfold Py.getitem. rewrite Hlang. simpl. rewrite Hid. simpl.
  assert ((max_examples =? -1) = false) as -> by lia. simpl.
  destruct (process_examples _ _ _ _ _ _ _ _ _ _ _ _ _) as [ex|]; simpl.
  - destruct (max_examples <? Py.len (examples ++ [ex])) eqn:Hfull.
    + f_equal. unfold Py.len in *. rewrite length_app in Hfull.
      simpl in Hfull. apply Z.ltb_lt in Hfull. symmetry.
      rewrite (app_assoc examples [ex] _ : examples ++ ex :: _ = _).
      apply take_app_length'. rewrite length_app. simpl. lia.
    + apply Z.ltb_ge in Hfull. rewrite IH by done. by rewrite <- app_assoc.
  - assert ((max_examples <? Py.len examples) = false) as -> by lia.
    by apply IH.
Qed.
End Loop.

(** C7 (as amended).  For a recognised dataset whose language tables are
    populated, a cap [m >= 0] and files that pass the length assertion: if
    more than [m] of the zipped lines yield an example, [load_data] returns
    the first [m + 1] of these examples. *)
Theorem load_data_cap_exceeds_by_one args filenames m dataset_name test_split
    lang lang_id :
  0 ≤ m →
  dataset_name ∈ ["java"; "python"] →
  DATA_LANG_MAP !! dataset_name = Some lang →
  LANG_ID_MAP !! lang = Some lang_id →
  lengths_agree filenames →
  let valid :=
    omap (row_example args test_split lang_id) (zipped_lines filenames) in
  m < Py.len valid →
  ∃ examples,
    load_data args filenames m dataset_name test_split = Ok examples
    ∧ examples = take (Z.to_nat m + 1) valid
    ∧ Py.len examples = m + 1.
Proof.
  intros Hm Hknown Hlang Hid Hagree valid Hmore.
  eexists. split; [|split; [reflexivity|]].
  - rewrite load_data_unfold, decide_True by done.
    by rewrite (load_loop_capped args m dataset_name test_split lang lang_id).
  - unfold Py.len in *. rewrite length_take. lia.
Qed.

End CorpusLoader.

(** ** The counter and its ranking *)

Lemma incr_count w wc w' :
  Py.count (Py.incr w wc) w' =
  if decide (w = w') then Py.count wc w' + 1 else Py.count wc w'.
Proof.
  induction wc as [|[k n] wc IH]; simpl.
  - by repeat case_decide.
  - repeat (case_decide; simpl; simplify_eq); try done.
Qed.

Lemma incr_keys w wc :
  Py.keys (Py.incr w wc) =
  if decide (w ∈ Py.keys wc) then Py.keys wc else Py.keys wc ++ [w].
Proof.
  unfold Py.keys. induction wc as [|[k n] wc IH].
  - case_decide as H; [by apply elem_of_nil in H|done].
  - cbn [Py.incr]. destruct (decide (k = w)) as [->|Hne];
      rewrite !fmap_cons; cbn [fst].
    + clear IH. case_decide as H; [done|]. exfalso. apply H. left.
    + rewrite IH. clear IH. destruct (decide (w ∈ wc.*1)) as [Hin|Hout].
      * case_decide as H; [done|]. exfalso. apply H. by right.
      * case_decide as H; [|done].
        apply elem_of_cons in H as [?|?]; congruence.
Qed.

Lemma incr_keys_NoDup w wc : NoDup (Py.keys wc) → NoDup (Py.keys (Py.incr w wc)).
Proof.
  intros Hnd. rewrite incr_keys. case_decide; [done|].
  apply NoDup_app. split_and!; [done| |apply NoDup_singleton].
  intros x Hx ->%list_elem_of_singleton. done.
Qed.

Lemma update_snoc wc ws w :
  Py.update wc (ws ++ [w]) = Py.incr w (Py.update wc ws).
Proof. unfold Py.update. by rewrite foldl_app. Qed.

Lemma update_app wc ws1 ws2 :
  Py.update wc (ws1 ++ ws2) = Py.update (Py.update wc ws1) ws2.
Proof. unfold Py.update. by rewrite foldl_app. Qed.

(** The number of occurrences of [w] in [ws]. *)
Lemma update_count wc ws w :
  Py.count (Py.update wc ws) w
  = Py.count wc w + Z.of_nat (length (filter (w =.) ws)).
Proof.
  revert wc. induction ws as [|x ws IH]; intros wc.
  - simpl. lia.
  - change (Py.update wc (x :: ws)) with (Py.update (Py.incr x wc) ws).
    rewrite IH, incr_count, filter_cons.
    destruct (decide (x = w)) as [->|Hne].
    + rewrite decide_True by done. simpl. lia.
    + rewrite decide_False by congruence. lia.
Qed.

Lemma update_keys_elem wc ws w :
  w ∈ Py.keys (Py.update wc ws) ↔ w ∈ Py.keys wc ∨ w ∈ ws.
Proof.
  revert wc. induction ws as [|x ws IH]; intros wc.
  - simpl. rewrite elem_of_nil. tauto.
  - change (Py.update wc (x :: ws)) with (Py.update (Py.incr x wc) ws).
    rewrite IH, incr_keys, elem_of_cons.
    case_decide; [|rewrite elem_of_app, list_elem_of_singleton];
      naive_solver.
Qed.

Lemma update_keys_NoDup wc ws :
  NoDup (Py.keys wc) → NoDup (Py.keys (Py.update wc ws)).
Proof.
  revert wc. induction ws as [|x ws IH]; intros wc Hnd; [done|].
  change (Py.update wc (x :: ws)) with (Py.update (Py.incr x wc) ws).
  by apply IH, incr_keys_NoDup.
Qed.

(** An item of a counter with distinct keys carries the count of its key. *)
Lemma count_item wc w n :
  NoDup (Py.keys wc) → (w, n) ∈ wc → Py.count wc w = n.
Proof.
  unfold Py.keys. induction wc as [|[k m] wc IH]; simpl.
  - by intros _ ?%elem_of_nil.
  - intros [Hk Hnd]%NoDup_cons [[= -> ->]|Hin]%elem_of_cons.
    + by rewrite decide_True.
    + rewrite decide_False; [by apply IH|].
      intros ->. apply Hk. by apply (list_elem_of_fmap_2 fst _ (w, n)).
Qed.

(** *** The stable descending order *)

Lemma insert_desc_perm x l : Py.insert_desc x l ≡ₚ x :: l.
Proof.
  induction l as [|y l IH]; simpl; [done|].
  destruct (y.2 <=? x.2); [done|]. rewrite IH. apply Permutation_swap.
Qed.

Lemma sorted_desc_perm wc : Py.sorted_desc wc ≡ₚ wc.
Proof.
  induction wc as [|x wc IH]; simpl; [done|].
  by rewrite insert_desc_perm, IH.
Qed.

Lemma insert_desc_sorted (R : relation (string * Z)) x l :
  (∀ y, y ∈ l → x.2 < y.2 → R y x) →
  (∀ y, y ∈ l → y.2 ≤ x.2 → R x y) →
  (∀ y z, R y z → z.2 ≤ y.2) →
  StronglySorted R l → StronglySorted R (Py.insert_desc x l).
Proof.
  intros Hgt Hle Hmono. induction l as [|y l IH]; simpl; intros Hs.
  - repeat constructor.
  - apply StronglySorted_cons in Hs as [Hy Hs].
    destruct (y.2 <=? x.2) eqn:Hc.
    + apply Z.leb_le in Hc. apply StronglySorted_cons. split.
      * apply Forall_cons. split; [apply Hle; [left|done]|].
        apply Forall_forall. intros z Hz. apply Hle; [by right|].
        rewrite Forall_forall in Hy. specialize (Hmono _ _ (Hy z Hz)). lia.
      * by apply StronglySorted_cons.
    + apply Z.leb_gt in Hc. apply StronglySorted_cons. split.
      * apply Forall_forall. intros z Hz.
        rewrite insert_desc_perm in Hz.
        apply elem_of_cons in Hz as [->|Hz].
        -- apply Hgt; [left|done].
        -- rewrite Forall_forall in Hy. by apply Hy.
      * apply IH; [| |done].
        -- intros z Hz. apply Hgt. by right.
        -- intros z Hz. apply Hle. by right.
Qed.

Lemma before_cons {A : Type} (x : A) l a b :
  before l a b → before (x :: l) a b.
Proof.
  intros (i & j & Hi & Hj & Hlt). exists (S i), (S j). simpl.
  split_and!; [done..|lia].
Qed.

Lemma before_head {A : Type} (x : A) l b : b ∈ l → before (x :: l) x b.
Proof.
  intros [j Hj]%list_elem_of_lookup. exists 0%nat, (S j). simpl.
  split_and!; [done..|lia].
Qed.

Lemma sorted_desc_sorted wc :
  StronglySorted (ranks_before wc) (Py.sorted_desc wc).
Proof.
  induction wc as [|x wc IH]; simpl; [constructor|].
  apply insert_desc_sorted.
  - intros y _ Hlt. by left.
  - intros y Hy Hle. rewrite sorted_desc_perm in Hy.
    destruct (decide (y.2 = x.2)) as [Heq|Hne].
    + right. split; [done|]. by apply before_head.
    + left. lia.
  - intros y z [?|[? _]]; lia.
  - clear -IH. induction IH as [|y l Hs IHs Hy]; constructor; [done|].
    eapply Forall_impl; [done|]. intros z [?|[? ?]]; [by left|right].
    split; [done|]. by apply before_cons.
Qed.

(** The keys of the tally are the words in first-seen order. *)
Lemma update_keys_first_seen wc ws :
  Py.keys (Py.update wc ws) = first_seen (Py.keys wc) ws.
Proof.
  revert wc. induction ws as [|w ws IH]; intros wc; [done|].
  change (Py.update wc (w :: ws)) with (Py.update (Py.incr w wc) ws).
  rewrite IH, incr_keys. done.
Qed.

Lemma tally_words (ws : list string) :
  list_to_set (Py.keys (Py.update [] ws)) =@{gset string} list_to_set ws.
Proof.
  apply set_eq. intros w. rewrite !elem_of_list_to_set, update_keys_elem.
  unfold Py.keys. simpl. rewrite elem_of_nil. tauto.
Qed.

Lemma tally_size (ws : list string) :
  length (Py.update [] ws) = size (list_to_set ws : gset string).
Proof.
  rewrite <- tally_words, size_list_to_set.
  - unfold Py.keys. by rewrite length_fmap.
  - apply update_keys_NoDup. constructor.
Qed.

Lemma sorted_desc_keys_NoDup wc :
  NoDup (Py.keys wc) → NoDup (Py.keys (Py.sorted_desc wc)).
Proof.
  intros Hnd. unfold Py.keys. by rewrite sorted_desc_perm.
Qed.

Lemma sorted_desc_keys_set wc :
  list_to_set (Py.keys (Py.sorted_desc wc))
  =@{gset string} list_to_set (Py.keys wc).
Proof.
  apply list_to_set_perm_L. unfold Py.keys. by rewrite sorted_desc_perm.
Qed.

(** The first [k] items of the ranking, as a set. *)
Lemma top_set_size wc (k : nat) :
  NoDup (Py.keys wc) →
  size (list_to_set (Py.keys (take k (Py.sorted_desc wc))) : gset string)
  = (k `min` length wc)%nat.
Proof.
  intros Hnd. rewrite size_list_to_set.
  - unfold Py.keys. rewrite length_fmap, length_take.
    by rewrite sorted_desc_perm.
  - unfold Py.keys. rewrite fmap_take.
    eapply sublist_NoDup; [|apply sublist_take].
    by apply sorted_desc_keys_NoDup.
Qed.

Lemma top_set_subseteq wc (k : nat) :
  list_to_set (Py.keys (take k (Py.sorted_desc wc)))
  ⊆@{gset string} list_to_set (Py.keys wc).
Proof.
  intros w. rewrite !elem_of_list_to_set. unfold Py.keys.
  intros (a & -> & Ha)%list_elem_of_fmap. apply list_elem_of_fmap_2.
  rewrite <- (sorted_desc_perm wc). by eapply subseteq_take.
Qed.

Lemma before_fmap {A B : Type} (f : A → B) l a b :
  before l a b → before (f <$> l) (f a) (f b).
Proof.
  intros (i & j & Hi & Hj & Hlt). exists i, j.
  rewrite !list_lookup_fmap, Hi, Hj. done.
Qed.

(** A word among the first [k] of the ranking has a larger count than any
    word of the counter outside them, or the same count and an earlier
    place in the counter. *)
Lemma top_set_ranks wc (k : nat) w w' :
  NoDup (Py.keys wc) →
  w ∈ Py.keys (take k (Py.sorted_desc wc)) →
  w' ∈ Py.keys wc →
  w' ∉ Py.keys (take k (Py.sorted_desc wc)) →
  Py.count wc w' < Py.count wc w
  ∨ (Py.count wc w' = Py.count wc w ∧ before (Py.keys wc) w w').
Proof.
  unfold Py.keys at 2 3 4.
  intros Hnd ([w0 c] & -> & Ha)%list_elem_of_fmap
    ([w0' c'] & -> & Hb)%list_elem_of_fmap Hout. simpl in *.
  assert ((w0', c') ∈ drop k (Py.sorted_desc wc)) as Hb'.
  { rewrite <- (sorted_desc_perm wc), <- (take_drop k (Py.sorted_desc wc)) in Hb.
    apply elem_of_app in Hb as [Hb|Hb]; [|done].
    exfalso. apply Hout. by apply (list_elem_of_fmap_2 fst _ (w0', c')). }
  assert ((w0, c) ∈ wc) as Ha'.
  { rewrite <- (sorted_desc_perm wc). by eapply subseteq_take. }
  assert (ranks_before wc (w0, c) (w0', c')) as Hr.
  { apply (StronglySorted_app_1_elem_of _ (take k (Py.sorted_desc wc))
             (drop k (Py.sorted_desc wc))); [|done..].
    rewrite take_drop. apply sorted_desc_sorted. }
  rewrite (count_item wc w0 c), (count_item wc w0' c') by done.
  destruct Hr as [Hlt|[Heq Hbef]]; simpl in *; [by left|right].
  split; [done|]. by apply (before_fmap fst) in Hbef.
Qed.

Lemma filter_eq_known (known : string → bool) w ws :
  length (filter (w =.) (filter (λ x, known x = true) ws)) =
  if known w then length (filter (w =.) ws) else 0%nat.
Proof.
  induction ws as [|x ws IH]; simpl.
  - by destruct (known w).
  - rewrite !filter_cons. destruct (decide (known x = true)) as [Hx|Hx].
    + rewrite filter_cons. destruct (decide (w = x)) as [->|Hne]; simpl.
      * rewrite IH, Hx. done.
      * done.
    + destruct (decide (w = x)) as [->|Hne]; simpl; [|done].
      rewrite IH. by destruct (known x).
Qed.

(** ** The vocabulary builder *)

Section VocabularyBuilder.
Variable normalize : string → string.

Local Abbreviation _insert := (_insert normalize).
Local Abbreviation tally_fields := (tally_fields normalize).
Local Abbreviation tally_examples := (tally_examples normalize).
Local Abbreviation load_words := (load_words normalize).
Local Abbreviation count_known := (count_known normalize).
Local Abbreviation summary_word_count := (summary_word_count normalize).
Local Abbreviation top_summary_words := (top_summary_words normalize).

Lemma tally_fields_spec ex fields wc toks :
  fields_tokens ex fields = Ok toks →
  tally_fields ex fields wc = Ok (Py.update wc (normalize <$> toks)).
Proof.
  revert wc toks. induction fields as [|f fields IH]; intros wc toks; simpl.
  - by intros [= <-].
  - destruct (field_tokens ex f) as [t|e]; simpl; [|done].
    destruct (fields_tokens ex fields) as [ts|e]; simpl; [|done].
    intros [= <-]. rewrite (IH _ ts) by done.
    unfold _insert. by rewrite fmap_app, update_app.
Qed.

Lemma tally_examples_spec examples fields wc toks :
  corpus_tokens examples fields = Ok toks →
  tally_examples examples fields wc = Ok (Py.update wc (normalize <$> toks)).
Proof.
  revert wc toks. induction examples as [|ex examples IH]; intros wc toks; simpl.
  - by intros [= <-].
  - destruct (fields_tokens ex fields) as [t|e] eqn:Ht; simpl; [|done].
    destruct (corpus_tokens examples fields) as [ts|e]; simpl; [|done].
    intros [= <-]. rewrite (tally_fields_spec _ _ _ t) by done. simpl.
    rewrite (IH _ ts) by done. by rewrite fmap_app, update_app.
Qed.

Lemma load_words_spec args examples fields dict_size toks :
  corpus_tokens examples fields = Ok toks →
  load_words args examples fields dict_size =
  Ok (list_to_set (Py.keys (Py.most_common (Py.update [] (normalize <$> toks))
                              (reserve dict_size)))).
Proof.
  intros Ht. unfold load_words.
  by rewrite (tally_examples_spec _ _ _ toks).
Qed.

(** C3 (as amended).  When the tally succeeds: without a dictionary size
    ([None]) every distinct normalised word of the selected fields is
    retained; a given size of at most 2 is used as the cap as it stands (so
    nothing is retained for a size of 0 or below); a given size above 2 caps
    the retained words at that size minus 2. *)
Theorem load_words_cap args examples fields toks :
  corpus_tokens examples fields = Ok toks →
  let words : gset string := list_to_set (normalize <$> toks) in
  load_words args examples fields None = Ok words
  ∧ (∀ n, n ≤ 2 →
       ∃ kept, load_words args examples fields (Some n) = Ok kept
               ∧ kept ⊆ words
               ∧ size kept = (Z.to_nat n `min` size words)%nat)
  ∧ (∀ n, 2 < n →
       ∃ kept, load_words args examples fields (Some n) = Ok kept
               ∧ kept ⊆ words
               ∧ size kept = (Z.to_nat (n - 2) `min` size words)%nat).
Proof.
  intros Ht words.
  set (tally := Py.update [] (normalize <$> toks)).
  assert (NoDup (Py.keys tally)) as Hnd
    by (apply update_keys_NoDup; constructor).
  assert (words = list_to_set (Py.keys tally)) as Hw
    by (symmetry; apply tally_words).
  assert (size words = length tally) as Hsz
    by (symmetry; apply tally_size).
  rewrite Hsz, Hw.
  split_and!.
  - rewrite (load_words_spec _ _ _ _ toks) by done. f_equal.
    apply sorted_desc_keys_set.
  - intros n Hn. eexists. split; [by apply load_words_spec|].
    assert (reserve (Some n) = Some n) as ->.
    { unfold reserve. destruct (n =? 0); simpl; [done|].
      by apply Z.ltb_ge in Hn as ->. }
    split; [apply top_set_subseteq|by apply top_set_size].
  - intros n Hn. eexists. split; [by apply load_words_spec|].
    assert (reserve (Some n) = Some (n - 2)) as ->.
    { unfold reserve. assert ((n =? 0) = false) as -> by lia.
      by apply Z.ltb_lt in Hn as ->. }
    split; [apply top_set_subseteq|by apply top_set_size].
Qed.


(** C6.  With [dict_size = 102] and more than 100 distinct normalised words
    in the selected fields, [load_words] retains exactly 100 words; each of
    them occurs more often than every word left out, or as often and
    earlier in the tally, whose keys are in first-seen order. *)
Theorem load_words_top_100 args examples fields toks :
  corpus_tokens examples fields = Ok toks →
  (100 < size (list_to_set (normalize <$> toks) : gset string))%nat →
  let tally := Py.update [] (normalize <$> toks) in
  ∃ kept,
    load_words args examples fields (Some 102) = Ok kept
    ∧ size kept = 100%nat
    ∧ (∀ w, w ∈ kept → w ∈ normalize <$> toks)
    ∧ (∀ w, Py.count tally w
            = Z.of_nat (length (filter (w =.) (normalize <$> toks))))
    ∧ Py.keys tally = first_seen [] (normalize <$> toks)
    ∧ (∀ w w', w ∈ kept → w' ∈ normalize <$> toks → w' ∉ kept →
         Py.count tally w' < Py.count tally w
         ∨ (Py.count tally w' = Py.count tally w
            ∧ before (Py.keys tally) w w')).
Proof.
  intros Ht Hmany tally.
  assert (NoDup (Py.keys tally)) as Hnd
    by (apply update_keys_NoDup; constructor).
  assert (∀ w, w ∈ Py.keys tally ↔ w ∈ normalize <$> toks) as Hkeys.
  { intros w. unfold tally. rewrite update_keys_elem.
    unfold Py.keys. simpl. rewrite elem_of_nil. tauto. }
  rewrite <- tally_size in Hmany. fold tally in Hmany.
  eexists. split; [by apply load_words_spec|].
  change (reserve (Some 102)) with (Some 100).
  change (Py.most_common ?wc (Some 100))
    with (take 100 (Py.sorted_desc wc)).
  fold tally. split_and!.
  - rewrite top_set_size by done. lia.
  - intros w Hw. apply Hkeys.
    by apply (top_set_subseteq tally 100), elem_of_list_to_set in Hw.
  - intros w. unfold tally. rewrite update_count. simpl. lia.
  - apply update_keys_first_seen.
  - intros w w' Hw Hw' Hout.
    rewrite elem_of_list_to_set in Hw. rewrite elem_of_list_to_set in Hout.
    apply Hkeys in Hw'. by apply (top_set_ranks tally 100).
Qed.

(** ** The summary word ranker *)

Lemma count_known_spec word_dict wc tokens :
  count_known word_dict wc tokens =
  Py.update wc (filter (λ w, Vocabulary.contains word_dict w = true)
                  (normalize <$> tokens)).
Proof.
  revert wc. induction tokens as [|t tokens IH]; intros wc; [done|].
  rewrite fmap_cons, filter_cons. unfold count_known in *. simpl.
  rewrite IH. destruct (Vocabulary.contains word_dict (normalize t)) eqn:Hk.
  - by rewrite decide_True.
  - by rewrite decide_False.
Qed.

Lemma summary_word_count_spec examples word_dict wc :
  Forall (λ ex, is_Some (Example.summary ex)) examples →
  summary_word_count examples word_dict wc =
  Ok (Py.update wc (filter (λ w, Vocabulary.contains word_dict w = true)
                      (normalize <$> summary_tokens examples))).
Proof.
  intros Hall. revert wc.
  induction Hall as [|ex examples [s Hs] _ IH]; intros wc; [done|].
  simpl. rewrite Hs, IH, count_known_spec.
  unfold summary_tokens. rewrite fmap_cons, Hs. simpl.
  by rewrite fmap_app, filter_app, update_app.
Qed.

(** C10.  When every example has a summary, [top_summary_words] returns
    without an error; a word that is not a member of the vocabulary has
    count zero, is no key of the frequency count and does not occur in the
    returned list, while a member is counted once for each summary token
    that normalises to it. *)
Theorem top_summary_words_ignores_unknown args examples word_dict :
  Forall (λ ex, is_Some (Example.summary ex)) examples →
  let toks := normalize <$> summary_tokens examples in
  ∃ word_count,
    summary_word_count examples word_dict [] = Ok word_count
    ∧ top_summary_words args examples word_dict
      = Ok (Py.most_common word_count (Some (tune_partial args)))
    ∧ (∀ w, Py.count word_count w =
            (if Vocabulary.contains word_dict w
             then Z.of_nat (length (filter (w =.) toks)) else 0))
    ∧ (∀ w, Vocabulary.contains word_dict w = false →
            (w ∉ Py.keys word_count)
            ∧ (w ∉ Py.keys (Py.most_common word_count
                              (Some (tune_partial args))))).
Proof.
  intros Hall toks. eexists. split; [by apply summary_word_count_spec|].
  fold toks. split_and!.
  - unfold top_summary_words. by rewrite summary_word_count_spec.
  - intros w. rewrite update_count, filter_eq_known. simpl.
    by destruct (Vocabulary.contains word_dict w).
  - intros w Hw.
    assert (w ∉ Py.keys (Py.update []
              (filter (λ w, Vocabulary.contains word_dict w = true) toks)))
      as Hout.
    { rewrite update_keys_elem. unfold Py.keys. simpl.
      rewrite elem_of_nil, list_elem_of_filter. intros [[]|[Hk _]].
      congruence. }
    split; [done|]. intros Hin. apply Hout.
    unfold Py.keys, Py.most_common in *.
    apply list_elem_of_fmap in Hin as (a & -> & Ha).
    apply list_elem_of_fmap_2. rewrite <- (sorted_desc_perm _).
    by eapply subseteq_take.
Qed.

End VocabularyBuilder.

(** ** Index assignment *)

Lemma add_dom v w :
  dom (Vocabulary.tok2ind (Vocabulary.add v w))
  = dom (Vocabulary.tok2ind v) ∪ {[w]}.
Proof.
  unfold Vocabulary.add, Vocabulary.contains. case_bool_decide as Hin.
  - apply elem_of_dom in Hin. set_solver.
  - simpl. rewrite dom_insert_L. set_solver.
Qed.

Lemma foldl_add_dom v (l : list string) :
  dom (Vocabulary.tok2ind (foldl Vocabulary.add v l))
  = dom (Vocabulary.tok2ind v) ∪ list_to_set l.
Proof.
  revert v. induction l as [|w l IH]; intros v; simpl.
  - set_solver.
  - rewrite IH, add_dom. set_solver.
Qed.

(** A word that is already a member keeps its index. *)
Lemma add_lookup_member v w w' :
  is_Some (Vocabulary.tok2ind v !! w') →
  Vocabulary.tok2ind (Vocabulary.add v w) !! w' = Vocabulary.tok2ind v !! w'.
Proof.
  intros Hin. unfold Vocabulary.add, Vocabulary.contains.
  case_bool_decide as Hw; [done|]. simpl.
  apply lookup_insert_ne. intros ->. done.
Qed.

Lemma foldl_add_lookup_member v (l : list string) w' :
  is_Some (Vocabulary.tok2ind v !! w') →
  Vocabulary.tok2ind (foldl Vocabulary.add v l) !! w'
  = Vocabulary.tok2ind v !! w'.
Proof.
  revert v. induction l as [|w l IH]; intros v Hin; simpl; [done|].
  rewrite IH; [by apply add_lookup_member|].
  by rewrite add_lookup_member.
Qed.

Section IndexAssignment.
Variables BOS_WORD EOS_WORD PAD_WORD UNK_WORD : string.
Variable normalize : string → string.

Local Abbreviation load_words := (load_words normalize).
Local Abbreviation build_word_dict :=
  (build_word_dict BOS_WORD EOS_WORD PAD_WORD UNK_WORD normalize).

(** C2 (as amended).  Two runs of the builder on the same examples, fields
    and size, each with the set iteration order of its own interpreter,
    fail alike or both succeed; on success the two vocabularies hold the
    same words, the reserved symbols have the same indices in both, and
    the whole index assignment is the same when both runs iterate over the
    retained word set in the same order, as two calls within one run do. *)
Theorem build_word_dict_reproducible order1 order2 args examples fields
    dict_size no_special_token :
  match build_word_dict order1 args examples fields dict_size no_special_token,
        build_word_dict order2 args examples fields dict_size no_special_token
  with
  | Ok v1, Ok v2 =>
      dom (Vocabulary.tok2ind v1) = dom (Vocabulary.tok2ind v2)
      ∧ (∀ w,
           is_Some (Vocabulary.tok2ind
                      (Vocabulary.new PAD_WORD UNK_WORD BOS_WORD EOS_WORD
                         no_special_token) !! w) →
           Vocabulary.tok2ind v1 !! w = Vocabulary.tok2ind v2 !! w)
      ∧ (∀ words,
           load_words args examples fields dict_size = Ok words →
           set_iter order1 words = set_iter order2 words →
           v1 = v2)
  | Raise e1, Raise e2 => e1 = e2
  | _, _ => False
  end.
Proof.
  unfold build_word_dict.
  destruct (load_words args examples fields dict_size) as [words|e];
    simpl; [|done].
  split_and!.
  - rewrite !foldl_add_dom. f_equal.
    apply list_to_set_perm_L. by rewrite !set_iter_perm.
  - intros w Hw. by rewrite !foldl_add_lookup_member.
  - intros ? [= <-] Heq. by rewrite Heq.
Qed.

End IndexAssignment.

(** * Evaluation on concrete inputs *)

Local Abbreviation process_examples_s :=
  (process_examples Sample.BOS_WORD Sample.EOS_WORD
     Sample.TOKEN_TYPE_MAP Sample.AST_TYPE_MAP).
Local Abbreviation load_data_s :=
  (load_data Sample.BOS_WORD Sample.EOS_WORD Sample.TOKEN_TYPE_MAP
     Sample.AST_TYPE_MAP Sample.DATA_LANG_MAP Sample.LANG_ID_MAP).
Local Abbreviation build_word_dict_s :=
  (build_word_dict Sample.BOS_WORD Sample.EOS_WORD Sample.PAD_WORD
     Sample.UNK_WORD Sample.normalize).

(** C1.  With code tag-mode 'subtoken' and cfg tag-mode 'ast', the cfg tag
    T is mapped through the token-type table (where it is unknown, hence
    1) and not through the AST-type table (where it is 2): the table of
    the cfg stream follows [code_tag_type]. *)
Theorem cfg_table_follows_code_tag_type :
  ∃ ex,
    process_examples_s 0 "x" None "y" (Some "T") None 10 10 10
      "subtoken" "ast" false true = Some ex
    ∧ Code.type (Example.cfg ex) = [1]
    ∧ Code.type (Example.cfg ex)
      = (λ ct, Py.get Sample.TOKEN_TYPE_MAP ct 1) <$> ["T"]
    ∧ (λ ct, Py.get Sample.AST_TYPE_MAP ct 1) <$> ["T"] = [2]
    ∧ Code.mask (Example.cfg ex) = Some [0].
Proof. eexists. split; [vm_compute; reflexivity|]. by vm_compute. Qed.

(** C4.  A cfg tag file of one line next to source and cfg files of two
    lines passes the assertion: the load returns the example of the first
    line and drops the second silently. *)
Theorem load_data_ignores_cfg_tag_length :
  let filenames := mkFiles ["a"; "b"] ["c"; "d"] None None (Some ["T"]) in
  lengths_agree filenames
  ∧ ∃ ex,
      load_data_s Sample.args filenames (-1) "java" false = Ok [ex]
      ∧ Code.text (Example.code ex) = "a".
Proof.
  split; [by vm_compute|]. eexists. split; [vm_compute; reflexivity|done].
Qed.

(** ** Instances of the theorems *)

Lemma annotations_match_tokens_witness :
  ∃ ex,
    process_examples_s 0 "f ( x )" (Some "N T N T") "entry exit"
      (Some "N N") None 3 10 10 "ast" "ast" false true = Some ex
    ∧ length (Code.type (Example.code ex))
      = length (Code.tokens (Example.code ex))
    ∧ length (Code.type (Example.cfg ex))
      = length (Code.tokens (Example.cfg ex)).
Proof.
  eexists. split; [vm_compute; reflexivity|].
  pose proof (annotations_match_tokens Sample.BOS_WORD Sample.EOS_WORD
                Sample.TOKEN_TYPE_MAP Sample.AST_TYPE_MAP
                0 "f ( x )" (Some "N T N T") "entry exit" (Some "N N") None
                3 10 10 "ast" "ast" false true _ eq_refl) as [[H1 _] [H2 _]].
  split; [exact H1|exact H2].
Defined.

Lemma test_split_only_truncates_summary_witness :
  ∃ ex_f s_f,
    process_examples_s 0 "x" None "y" None (Some "Returns The Sum")
      10 10 2 "subtoken" "subtoken" true false = Some ex_f
    ∧ Example.summary ex_f = Some s_f
    ∧ Py.len (Summary.tokens s_f) = 2 + 2.
Proof.
  destruct (test_split_only_truncates_summary Sample.BOS_WORD Sample.EOS_WORD
              Sample.TOKEN_TYPE_MAP Sample.AST_TYPE_MAP
              0 "x" None "y" None "Returns The Sum" 10 10 2
              "subtoken" "subtoken" true _ ltac:(lia) eq_refl eq_refl)
    as (ex_f & s_f & _ & Hf & _ & _ & Hs & _ & Hlen & _).
  by exists ex_f, s_f.
Defined.

Lemma load_data_cap_exceeds_by_one_witness :
  ∃ examples,
    load_data_s Sample.args
      (mkFiles (replicate 10 "a") (replicate 10 "c") None None None)
      5 "java" false = Ok examples
    ∧ Py.len examples = 6.
Proof.
  destruct (load_data_cap_exceeds_by_one Sample.BOS_WORD Sample.EOS_WORD
              Sample.TOKEN_TYPE_MAP Sample.AST_TYPE_MAP
              Sample.DATA_LANG_MAP Sample.LANG_ID_MAP Sample.args
              (mkFiles (replicate 10 "a") (replicate 10 "c") None None None)
              5 "java" false "java" 0)
    as (examples & Hload & _ & Hlen).
  - lia.
  - left.
  - reflexivity.
  - reflexivity.
  - vm_compute. repeat split; reflexivity.
  - vm_compute. reflexivity.
  - by exists examples.
Defined.

Lemma load_words_cap_witness :
  load_words Sample.normalize Sample.args
    [Sample.example_of ["a"; "b"; "a"; "c"] ["x"]] ["code"] None
  = Ok (list_to_set ["a"; "b"; "a"; "c"])
  ∧ ∃ kept,
      load_words Sample.normalize Sample.args
        [Sample.example_of ["a"; "b"; "a"; "c"] ["x"]] ["code"] (Some 4)
      = Ok kept
      ∧ size kept = 2%nat.
Proof.
  destruct (load_words_cap Sample.normalize Sample.args
              [Sample.example_of ["a"; "b"; "a"; "c"] ["x"]] ["code"]
              ["a"; "b"; "a"; "c"] eq_refl) as (Hall & _ & Hcap).
  split; [exact Hall|].
  destruct (Hcap 4 ltac:(lia)) as (kept & Hk & _ & Hsz).
  exists kept. split; [exact Hk|]. rewrite Hsz. by vm_compute.
Defined.

Lemma load_words_top_100_witness :
  ∃ kept,
    load_words Sample.normalize Sample.args
      [Sample.example_of Sample.many_words ["x"]] ["code"] (Some 102)
    = Ok kept
    ∧ size kept = 100%nat.
Proof.
  destruct (load_words_top_100 Sample.normalize Sample.args
              [Sample.example_of Sample.many_words ["x"]] ["code"]
              Sample.many_words) as (kept & Hk & Hsz & _).
  - vm_compute. reflexivity.
  - vm_compute. lia.
  - by exists kept.
Defined.

Lemma top_summary_words_ignores_unknown_witness :
  ∃ top,
    top_summary_words Sample.normalize Sample.args
      [Sample.example_of ["a"] ["<s>"; "sum"; "of"; "sum"; "</s>"]]
      (Vocabulary.add
         (Vocabulary.new Sample.PAD_WORD Sample.UNK_WORD Sample.BOS_WORD
            Sample.EOS_WORD false) "sum")
    = Ok top
    ∧ "of" ∉ Py.keys top.
Proof.
  destruct (top_summary_words_ignores_unknown Sample.normalize Sample.args
              [Sample.example_of ["a"] ["<s>"; "sum"; "of"; "sum"; "</s>"]]
              (Vocabulary.add
                 (Vocabulary.new Sample.PAD_WORD Sample.UNK_WORD
                    Sample.BOS_WORD Sample.EOS_WORD false) "sum"))
    as (wc & _ & Htop & _ & Hout).
  - repeat constructor. by eexists.
  - eexists. split; [exact Htop|]. apply (Hout "of"). by vm_compute.
Defined.

(** ** Inputs on which the claims as first stated fail *)

Local Abbreviation row_example_s :=
  (row_example Sample.BOS_WORD Sample.EOS_WORD
     Sample.TOKEN_TYPE_MAP Sample.AST_TYPE_MAP).

(** C2.  Two interpreters that enumerate the retained word set in opposite
    orders assign different indices: the word a is given index 4 by one
    and index 5 by the other. *)
Lemma build_word_dict_order_dependent :
  build_word_dict_s Sample.order_fwd Sample.args
    [Sample.example_of ["a"; "b"] ["x"]] ["code"] None false
  ≠ build_word_dict_s Sample.order_rev Sample.args
      [Sample.example_of ["a"; "b"] ["x"]] ["code"] None false.
Proof.
  intros H.
  apply (f_equal (λ r, match r with
                       | Ok v => Vocabulary.tok2ind v !! "a"
                       | Raise _ => None
                       end)) in H.
  vm_compute in H. discriminate.
Qed.

(** C3.  A dictionary size of 1 is not treated as "no cap": of the two
    distinct words a and b only one is retained. *)
Lemma load_words_size_1_is_a_cap :
  ¬ (1 ≤ 2 →
     ∃ kept,
       load_words Sample.normalize Sample.args
         [Sample.example_of ["a"; "b"; "a"] ["x"]] ["code"] (Some 1)
       = Ok kept
       ∧ ∀ w, w ∈ ["a"; "b"; "a"] → Sample.normalize w ∈ kept).
Proof.
  intros H. destruct H as (kept & Hk & Hall); [lia|].
  rewrite (load_words_spec Sample.normalize Sample.args
             [Sample.example_of ["a"; "b"; "a"] ["x"]] ["code"] (Some 1)
             ["a"; "b"; "a"] eq_refl) in Hk.
  assert (Py.keys (Py.most_common
                     (Py.update [] (Sample.normalize <$> ["a"; "b"; "a"]))
                     (reserve (Some 1))) = ["a"]) as Heq
    by (vm_compute; reflexivity).
  rewrite Heq in Hk.
  assert (kept = list_to_set ["a"]) as -> by congruence.
  assert ("b" ∈ ["a"; "b"; "a"]) as Hb by (right; left).
  apply Hall, elem_of_list_to_set, list_elem_of_singleton in Hb.
  discriminate.
Qed.

(** C7.  With the cap -2 (which is not -1) and ten lines that all yield an
    example, the loop stops after the first line: one example is returned,
    not -2 + 1. *)
Lemma load_data_negative_cap :
  let filenames :=
    mkFiles (replicate 10 "a") (replicate 10 "c") None None None in
  ¬ (-2 ≠ -1 →
     -2 < Py.len (omap (row_example_s Sample.args false 0)
                    (zipped_lines filenames)) →
     ∃ examples,
       load_data_s Sample.args filenames (-2) "java" false = Ok examples
       ∧ Py.len examples = -2 + 1).
Proof.
  intros filenames H.
  destruct H as (examples & Hload & Hlen); [lia|by vm_compute|].
  vm_compute in Hload. injection Hload as <-.
  vm_compute in Hlen. discriminate.
Qed.

(** C8.  With [max_tgt_len = 0] a one-token target has more than
    [max_tgt_len] tokens and the test-mode call returns an example, but
    the call with [test_split = False] returns [None], not a summary of
    [0 + 2] tokens. *)
Lemma test_split_false_rejects_at_zero :
  ¬ (0 < Py.len (Py.split "done") →
     ∀ ex_t,
       process_examples_s 0 "x" None "y" None (Some "done") 10 10 0
         "subtoken" "subtoken" false true = Some ex_t →
       ∃ ex_f s_f,
         process_examples_s 0 "x" None "y" None (Some "done") 10 10 0
           "subtoken" "subtoken" false false = Some ex_f
         ∧ Example.code ex_f = Example.code ex_t
         ∧ Example.cfg ex_f = Example.cfg ex_t
         ∧ Example.summary ex_f = Some s_f
         ∧ Py.len (Summary.tokens s_f) = 0 + 2).
Proof.
  intros H.
  edestruct H as (ex_f & s_f & Hf & _);
    [by vm_compute|vm_compute; reflexivity|].
  vm_compute in Hf. discriminate.
Qed.

(** C9.  Without a code tag string and with tag-mode 'ast' the returned
    code fragment has one token and a mask that is present and empty. *)
Lemma mask_without_tags_is_empty :
  ¬ (∀ ex,
       process_examples_s 0 "a" None "c" None None 10 10 10
         "ast" "ast" false true = Some ex →
       (Code.type (Example.code ex) ≠ [] →
        length (Code.type (Example.code ex))
        = length (Code.tokens (Example.code ex)))
       ∧ (∀ m, Code.mask (Example.code ex) = Some m →
               length m = length (Code.tokens (Example.code ex)))).
Proof.
  intros H. edestruct H as [_ Hm]; [vm_compute; reflexivity|].
  specialize (Hm [] eq_refl). discriminate.
Qed.
